(** * lms.djangoapps.verify_student.api

    A shallow embedding of the three API functions of
    [lms/djangoapps/verify_student/api.py]

      - [send_approval_email]
      - [create_verification_attempt]
      - [update_verification_attempt_status]

    together with the part of the Django world they act on: the
    [VerificationAttempt] table, the settings object, the error log and
    the two email back ends.  Python exceptions are results of an
    error-and-state monad; a raised exception keeps the effects that
    happened before it (a logged line stays logged). *)

From Stdlib Require Import ZArith String Ascii List DecimalString.
From stdpp Require Import base option list gmap strings.

Local Open Scope Z_scope.
Local Open Scope string_scope.

(** ** Python values *)

(** [str.startswith]: [startswith s p] is Python's [s.startswith(p)]. *)
Definition startswith (s p : string) : bool := String.prefix p s.

(** [x in l] for a list of strings. *)
Definition py_in (x : string) (l : list string) : bool :=
  existsb (String.eqb x) l.

(** [str(n)] for a Python int. *)
Definition str_of_int (n : Z) : string :=
  NilZero.string_of_int (Z.to_int n).

(** Left padding with the character 0, as the numeric directives of
    [strftime] do. *)
Fixpoint zfill_aux (missing : nat) (s : string) : string :=
  match missing with
  | O => s
  | S k => String "0" (zfill_aux k s)
  end.

Definition zfill (width : nat) (s : string) : string :=
  zfill_aux (width - String.length s) s.

(** [repr] of a list of strings whose elements need no escaping (attribute
    names are identifiers): the text an f-string prints for a list. *)
Fixpoint repr_items (l : list string) : string :=
  match l with
  | [] => ""
  | [x] => "'" ++ x ++ "'"
  | x :: rest => "'" ++ x ++ "', " ++ repr_items rest
  end.

Definition repr_list (l : list string) : string :=
  "[" ++ repr_items l ++ "]".

(** ** datetime *)

Record date := { d_year : Z; d_month : Z; d_day : Z }.

Record datetime := {
  year : Z; month : Z; day : Z;
  hour : Z; minute : Z; second : Z; microsecond : Z
}.

(** [datetime.date()] keeps year, month and day. *)
Definition datetime_date (dt : datetime) : date :=
  {| d_year := year dt; d_month := month dt; d_day := day dt |}.

(** One [strftime] directive.  The directives the module uses are m, d and
    Y; the escaped percent sign is there as well, any other directive is
    left in place. *)
Definition strftime_directive (d : date) (c : ascii) : string :=
  if Ascii.eqb c "m" then zfill 2 (str_of_int (d_month d))
  else if Ascii.eqb c "d" then zfill 2 (str_of_int (d_day d))
  else if Ascii.eqb c "Y" then zfill 4 (str_of_int (d_year d))
  else if Ascii.eqb c "%" then "%"
  else String "%" (String c "").

(** [date.strftime(fmt)]. *)
Fixpoint strftime (d : date) (fmt : string) : string :=
  match fmt with
  | "" => ""
  | String c rest =>
      if Ascii.eqb c "%" then
        match rest with
        | String k rest' => strftime_directive d k ++ strftime d rest'
        | "" => "%"
        end
      else String c (strftime d rest)
  end.

(** ** The models *)

(** The user and its profile are rows of other applications; the API reads
    [user.email] and [user.profile.name] only.  The profile is a row of its
    own that points to the user: a user may have none, and then reading
    [user.profile] raises. *)
Module UserProfile.
Record t := { name : string }.
End UserProfile.

Module User.
Record t := { id : Z; email : string; profile : option UserProfile.t }.
End User.

(** Modelled from the spec: [models.py] is not among the sources.  The
    spec's data model is a single record type with fields for owning user,
    name, status and an optional expiration timestamp: the columns of a
    row.  A model instance is such a row in memory with the primary key
    [id] that Django gives every model. *)
Module VerificationAttempt.
Record Row := {
  user : User.t;
  name : string;
  status : string;
  expiration_datetime : option datetime
}.

Record t := { id : Z; row : Row }.

(** [attempt.status = s] *)
Definition set_status (s : string) (a : t) : t :=
  {| id := id a;
     row := {| user := user (row a); name := name (row a); status := s;
               expiration_datetime := expiration_datetime (row a) |} |}.
End VerificationAttempt.

(** Values that end up in settings and in the dictionaries handed to the
    email back ends. *)
#[local] Unset Elimination Schemes.
Inductive PyVal :=
| PyNone
| PyBool (b : bool)
| PyInt (n : Z)
| PyStr (s : string)
| PyUser (u : User.t)
| PyDict (d : gmap string PyVal).
#[local] Set Elimination Schemes.

(** Python truth value testing. *)
Definition truthy (v : PyVal) : bool :=
  match v with
  | PyNone => false
  | PyBool b => b
  | PyInt n => negb (Z.eqb n 0)
  | PyStr s => negb (String.eqb s "")
  | PyUser _ => true
  | PyDict d => match map_to_list d with [] => false | _ => true end
  end.

(** [d.get(k)]: the value, or [None] when the key is absent. *)
Definition dict_get (d : gmap string PyVal) (k : string) : PyVal :=
  default PyNone (d !! k).

(** ** The world the API acts on *)

Record Settings := {
  PLATFORM_NAME : string;
  VERIFY_STUDENT : gmap string PyVal
}.

(** Statements the ORM sends to the [VerificationAttempt] table. *)
Inductive Query :=
| SelectById (pk : Z)
| InsertRow (pk : Z)
| UpdateRow (pk : Z).

(** The two email back ends, recorded as the call that reached them. *)
Inductive EmailCall :=
| send_verification_status_email_delay (context : PyVal)
| send_verification_approved_email (context : PyVal).

Inductive Exception :=
| VerificationAttemptInvalidStatus
| VerificationAttempt_DoesNotExist
| AttributeError (msg : string)
| RelatedObjectDoesNotExist
| KeyError (key : string)
| IndexError
| ValueError.

Record World := {
  settings : Settings;
  (** rows of the VerificationAttempt table, by primary key *)
  db_rows : gmap Z VerificationAttempt.Row;
  (** last value handed out by the table's auto-increment sequence *)
  db_seq : Z;
  (** every statement sent to the table, oldest first *)
  db_queries : list Query;
  (** lines written by [log.error] *)
  log : list string;
  (** calls that reached an email back end *)
  outbox : list EmailCall
}.

Definition set_db_rows (rows : gmap Z VerificationAttempt.Row) (w : World) : World :=
  {| settings := settings w; db_rows := rows; db_seq := db_seq w;
     db_queries := db_queries w; log := log w; outbox := outbox w |}.

Definition set_db_seq (n : Z) (w : World) : World :=
  {| settings := settings w; db_rows := db_rows w; db_seq := n;
     db_queries := db_queries w; log := log w; outbox := outbox w |}.

Definition add_query (q : Query) (w : World) : World :=
  {| settings := settings w; db_rows := db_rows w; db_seq := db_seq w;
     db_queries := db_queries w ++ [q]; log := log w; outbox := outbox w |}.

Definition add_log (line : string) (w : World) : World :=
  {| settings := settings w; db_rows := db_rows w; db_seq := db_seq w;
     db_queries := db_queries w; log := log w ++ [line]; outbox := outbox w |}.

Definition add_email (c : EmailCall) (w : World) : World :=
  {| settings := settings w; db_rows := db_rows w; db_seq := db_seq w;
     db_queries := db_queries w; log := log w; outbox := outbox w ++ [c] |}.

(** ** The monad of Python statements *)

Inductive Result (A : Type) :=
| Return (a : A)
| Raise (e : Exception).
Arguments Return {A} a.
Arguments Raise {A} e.

Definition M (A : Type) : Type := World -> Result A * World.

Definition ret {A} (a : A) : M A := fun w => (Return a, w).

Definition raise {A} (e : Exception) : M A := fun w => (Raise e, w).

Definition bind {A B} (m : M A) (k : A -> M B) : M B :=
  fun w =>
    match m w with
    | (Return a, w') => k a w'
    | (Raise e, w') => (Raise e, w')
    end.

(** [try: m  except e: handler].  Any other exception passes through. *)
Definition try_except {A} (m : M A) (catches : Exception -> bool)
    (handler : M A) : M A :=
  fun w =>
    match m w with
    | (Return a, w') => (Return a, w')
    | (Raise e, w') => if catches e then handler w' else (Raise e, w')
    end.

Declare Scope py_scope.
Delimit Scope py_scope with py.
Notation "x <- m ;; k" := (bind m (fun x => k))
  (at level 100, m at next level, right associativity) : py_scope.
Notation "m ;; k" := (bind m (fun _ => k))
  (at level 100, right associativity) : py_scope.

(** The value a call returned, and the world it left. *)
Definition result {A} (r : Result A * World) : Result A := fst r.
Definition world {A} (r : Result A * World) : World := snd r.

(** ** Framework primitives *)

(** [log.error(line)] *)
Definition log_error (line : string) : M unit :=
  fun w => (Return tt, add_log line w).

(** Reading the [settings] object. *)
Definition get_settings : M Settings :=
  fun w => (Return (settings w), w).

Definition is_DoesNotExist (e : Exception) : bool :=
  match e with
  | VerificationAttempt_DoesNotExist => true
  | _ => false
  end.

(** [VerificationAttempt.objects.get(id=pk)]: one SELECT; the row, or
    [VerificationAttempt.DoesNotExist]. *)
Definition objects_get (pk : Z) : M VerificationAttempt.t :=
  fun w =>
    let w' := add_query (SelectById pk) w in
    match db_rows w !! pk with
    | Some row =>
        (Return {| VerificationAttempt.id := pk; VerificationAttempt.row := row |},
         w')
    | None => (Raise VerificationAttempt_DoesNotExist, w')
    end.

(** [VerificationAttempt.objects.create(...)]: one INSERT; the primary key
    is the next value of the table's auto-increment sequence.  Django does
    not check [choices] of a field when it saves. *)
Definition objects_create (user : User.t) (name status : string)
    (expiration_datetime : option datetime) : M VerificationAttempt.t :=
  fun w =>
    let pk := db_seq w + 1 in
    let row :=
      {| VerificationAttempt.user := user;
         VerificationAttempt.name := name;
         VerificationAttempt.status := status;
         VerificationAttempt.expiration_datetime := expiration_datetime |} in
    (Return {| VerificationAttempt.id := pk; VerificationAttempt.row := row |},
     add_query (InsertRow pk)
       (set_db_seq pk (set_db_rows (<[pk := row]> (db_rows w)) w))).

(** [attempt.save()] of an instance that has a primary key: the row with
    that key is written from the instance (an UPDATE; an INSERT when
    there is no such row). *)
Definition save (attempt : VerificationAttempt.t) : M unit :=
  fun w =>
    let pk := VerificationAttempt.id attempt in
    (Return tt,
     add_query (UpdateRow pk)
       (set_db_rows (<[pk := VerificationAttempt.row attempt]> (db_rows w)) w)).

(** [send_verification_status_email.delay(context)]: the task is handed to
    the queue. *)
Definition delay (context : PyVal) : M unit :=
  fun w => (Return tt, add_email (send_verification_status_email_delay context) w).

(** [send_verification_approved_email(context=...)]: the direct back end. *)
Definition call_send_verification_approved_email (context : PyVal) : M unit :=
  fun w => (Return tt, add_email (send_verification_approved_email context) w).

(** [x.date()] where [x] may be [None]. *)
Definition date_method (x : option datetime) : M date :=
  match x with
  | Some dt => ret (datetime_date dt)
  | None => raise (AttributeError "'NoneType' object has no attribute 'date'")
  end.

(** [user.profile]: the related row, or [RelatedObjectDoesNotExist]. *)
Definition get_profile (user : User.t) : M UserProfile.t :=
  match User.profile user with
  | Some profile => ret profile
  | None => raise RelatedObjectDoesNotExist
  end.

(** A computation without effect on the world, with its outcome. *)
Definition lift_result {A} (r : Result A) : M A := fun w => (r, w).

(** ** str.format *)

(** Where the scan of a template stands. *)
Inductive FormatState :=
| InText
| AfterOpen
| AfterClose
| InField (name : string).

Definition prepend (s : string) (r : Result string) : Result string :=
  match r with
  | Return t => Return (s ++ t)
  | Raise e => Raise e
  end.

Definition is_decimal (c : ascii) : bool :=
  Nat.leb 48 (nat_of_ascii c) && Nat.leb (nat_of_ascii c) 57.

Fixpoint all_decimal (s : string) : bool :=
  match s with
  | "" => true
  | String c rest => is_decimal c && all_decimal rest
  end.

Fixpoint decimal_value (acc : Z) (s : string) : Z :=
  match s with
  | "" => acc
  | String c rest => decimal_value (10 * acc + (Z.of_nat (nat_of_ascii c) - 48)) rest
  end.

(** The largest index of a 64-bit build. *)
Definition PY_SSIZE_T_MAX : Z := 2 ^ 63 - 1.

(** The object a field name stands for, in a call that passes the single
    keyword argument [field=value] and no positional argument: an empty
    name or a number asks for a positional argument, any other name for a
    keyword. *)
Definition format_lookup (field value name : string) : Result string :=
  if String.eqb name "" then Raise IndexError
  else if all_decimal name then
    if Z.leb (decimal_value 0 name) PY_SSIZE_T_MAX then Raise IndexError
    else Raise ValueError
  else if String.eqb name field then Return value
  else Raise (KeyError name).

(** Characters after which a field is more than a name: a conversion, a
    format specification, an attribute, an index; and bytes outside
    ASCII, whose reading as digits is the library's. *)
Definition beyond_name (c : ascii) : bool :=
  Ascii.eqb c "!" || Ascii.eqb c ":" || Ascii.eqb c "." || Ascii.eqb c "["
  || Nat.leb 128 (nat_of_ascii c).

(** The rows are those the sequence has handed out: no key is beyond it.
    The database keeps this; [objects_create] relies on it for a fresh key. *)
Definition db_wf (w : World) : Prop :=
  forall pk, is_Some (db_rows w !! pk) -> pk <= db_seq w.

(** ** Sample data, after the fixtures of [tests/test_api.py] *)

(** Modelled from the spec: [statuses.py] is not among the sources.  The
    spec speaks of a small fixed enumeration of statuses; the tests read
    created, pending, approved and denied off the class
    [VerificationAttemptStatus] and expect completed, failed, submitted and
    expired to be refused.  This is [dir(VerificationAttemptStatus)] for
    such a class: sorted, with the attributes every class has. *)
Definition sample_dir : list string :=
  [ "__class__"; "__delattr__"; "__dict__"; "__dir__"; "__doc__"; "__eq__";
    "__format__"; "__ge__"; "__getattribute__"; "__gt__"; "__hash__";
    "__init__"; "__init_subclass__"; "__le__"; "__lt__"; "__module__";
    "__ne__"; "__new__"; "__reduce__"; "__reduce_ex__"; "__repr__";
    "__setattr__"; "__sizeof__"; "__str__"; "__subclasshook__";
    "__weakref__"; "approved"; "created"; "denied"; "pending" ].

(** No translation catalogue: [gettext] gives the message back. *)
Definition sample_gettext (msg : string) : string := msg.

(** A catalogue whose translator renamed the field of every message. *)
Definition sample_gettext_other_field (msg : string) : string :=
  "Your {platform} ID verification was approved!".

(** No message of the fixtures has a conversion, a format specification,
    an attribute or an index, so the library is never asked about one. *)
Definition sample_python_format (template value : string) : Result string :=
  Raise ValueError.

(** A user without a profile row. *)
Definition sample_user_no_profile : User.t :=
  {| User.id := 2; User.email := "staff@example.com"; User.profile := None |}.

Definition sample_user : User.t :=
  {| User.id := 1; User.email := "robot@example.com";
     User.profile := Some {| UserProfile.name := "Robot" |} |}.

Definition sample_datetime : datetime :=
  {| year := 2024; month := 12; day := 31;
     hour := 0; minute := 0; second := 0; microsecond := 0 |}.

(** The attempt that [setUp] saves. *)
Definition sample_row : VerificationAttempt.Row :=
  {| VerificationAttempt.user := sample_user;
     VerificationAttempt.name := "Tester McTest";
     VerificationAttempt.status := "created";
     VerificationAttempt.expiration_datetime := Some sample_datetime |}.

Definition sample_attempt : VerificationAttempt.t :=
  {| VerificationAttempt.id := 1; VerificationAttempt.row := sample_row |}.

(** An attempt of the user without profile. *)
Definition sample_attempt_no_profile : VerificationAttempt.t :=
  {| VerificationAttempt.id := 3;
     VerificationAttempt.row :=
       {| VerificationAttempt.user := sample_user_no_profile;
          VerificationAttempt.name := "Tester McTest";
          VerificationAttempt.status := "created";
          VerificationAttempt.expiration_datetime := Some sample_datetime |} |}.

(** An attempt without expiration, as [create_verification_attempt] makes
    when the argument is left out. *)
Definition sample_attempt_no_expiration : VerificationAttempt.t :=
  {| VerificationAttempt.id := 2;
     VerificationAttempt.row :=
       {| VerificationAttempt.user := sample_user;
          VerificationAttempt.name := "Tester McTest";
          VerificationAttempt.status := "created";
          VerificationAttempt.expiration_datetime := None |} |}.

Definition sample_settings (use_django_mail : PyVal) : Settings :=
  {| PLATFORM_NAME := "edX";
     VERIFY_STUDENT := {[ "USE_DJANGO_MAIL" := use_django_mail ]} |}.

(** The database after [setUp]: one attempt, with primary key 1. *)
Definition sample_world (use_django_mail : PyVal) : World :=
  {| settings := sample_settings use_django_mail;
     db_rows := {[ 1 := sample_row ]};
     db_seq := 1;
     db_queries := [];
     log := [];
     outbox := [] |}.

(** The same database under settings whose [VERIFY_STUDENT] has no
    [USE_DJANGO_MAIL] key. *)
Definition sample_world_no_setting : World :=
  {| settings := {| PLATFORM_NAME := "edX"; VERIFY_STUDENT := ∅ |};
     db_rows := {[ 1 := sample_row ]};
     db_seq := 1;
     db_queries := [];
     log := [];
     outbox := [] |}.

(** ** The API *)

Section Api.

(** [dir(VerificationAttemptStatus)]; the class is defined in
    [statuses.py]. *)
Variable dir_VerificationAttemptStatus : list string.

(** [django.utils.translation.gettext]. *)
Variable gettext : string -> string.

(** Python's [template.format(platform_name=value)] itself.  The model
    below asks it about the rest of a template from a replacement field on
    when that field has a conversion, a format specification, an attribute
    or an index. *)
Variable python_format : string -> string -> Result string.

(** [template.format(field=value)], read from left to right.  Doubled
    braces stand for one; a single closing brace and an open field at the
    end are errors; a field that is a bare name is looked up; the first
    error is the outcome. *)
Fixpoint format_from (st : FormatState) (field value : string) (s : string)
    : Result string :=
  match s with
  | "" =>
      match st with
      | InText => Return ""
      | AfterOpen | AfterClose | InField _ => Raise ValueError
      end
  | String c rest =>
      let field_char (name : string) : Result string :=
        if Ascii.eqb c "}" then
          match format_lookup field value name with
          | Return text => prepend text (format_from InText field value rest)
          | Raise e => Raise e
          end
        else if Ascii.eqb c "{" then Raise ValueError
        else if beyond_name c then python_format ("{" ++ name ++ s) value
        else format_from (InField (name ++ String c "")) field value rest in
      match st with
      | InText =>
          if Ascii.eqb c "{" then format_from AfterOpen field value rest
          else if Ascii.eqb c "}" then format_from AfterClose field value rest
          else prepend (String c "") (format_from InText field value rest)
      | AfterOpen =>
          if Ascii.eqb c "{" then prepend "{" (format_from InText field value rest)
          else field_char ""
      | AfterClose =>
          if Ascii.eqb c "}" then prepend "}" (format_from InText field value rest)
          else Raise ValueError
      | InField name => field_char name
      end
  end.

Definition str_format (template field value : string) : Result string :=
  format_from InText field value template.

Local Open Scope py_scope.

Definition send_approval_email (attempt : VerificationAttempt.t) : M unit :=
  settings <- get_settings ;;
  let verification_status_email_vars : gmap string PyVal :=
    {[ "platform_name" := PyStr (PLATFORM_NAME settings) ]} in
  expiration_datetime <-
    date_method
      (VerificationAttempt.expiration_datetime (VerificationAttempt.row attempt)) ;;
  if truthy (dict_get (VERIFY_STUDENT settings) "USE_DJANGO_MAIL") then
    let verification_status_email_vars :=
      <[ "expiration_datetime" :=
           PyStr (strftime expiration_datetime "%m/%d/%Y") ]>
        verification_status_email_vars in
    profile <-
      get_profile (VerificationAttempt.user (VerificationAttempt.row attempt)) ;;
    let verification_status_email_vars :=
      <[ "full_name" := PyStr (UserProfile.name profile) ]>
        verification_status_email_vars in
    subject <-
      lift_result
        (str_format (gettext "Your {platform_name} ID verification was approved!")
           "platform_name" (PLATFORM_NAME settings)) ;;
    let context : gmap string PyVal :=
      {[ "subject" := PyStr subject;
         "template" := PyStr "emails/passed_verification_email.txt";
         "email" :=
           PyStr (User.email
                    (VerificationAttempt.user (VerificationAttempt.row attempt)));
         "email_vars" := PyDict verification_status_email_vars ]} in
    delay (PyDict context)
  else
    let email_context : gmap string PyVal :=
      {[ "user" :=
           PyUser (VerificationAttempt.user (VerificationAttempt.row attempt));
         "expiration_datetime" :=
           PyStr (strftime expiration_datetime "%m/%d/%Y") ]} in
    call_send_verification_approved_email (PyDict email_context).

Definition create_verification_attempt (user : User.t) (name status : string)
    (expiration_datetime : option datetime) : M Z :=
  verification_attempt <-
    objects_create user name status expiration_datetime ;;
  ret (VerificationAttempt.id verification_attempt).

(** The call with [expiration_datetime] left out: the default is [None]. *)
Definition create_verification_attempt_default (user : User.t)
    (name status : string) : M Z :=
  create_verification_attempt user name status None.

(** The list comprehension over [dir(VerificationAttemptStatus)]. *)
Definition status_list : list string :=
  List.filter (fun attr => negb (startswith attr "__"))
    dir_VerificationAttemptStatus.

Definition update_verification_attempt_status (attempt_id : Z)
    (status : string) : M unit :=
  (if negb (py_in status status_list) then
     log_error
       ("update_verification_attempt_status called with invalid status. "
        ++ "Status must be one of: " ++ repr_list status_list) ;;
     raise VerificationAttemptInvalidStatus
   else ret tt) ;;
  attempt <-
    try_except (objects_get attempt_id) is_DoesNotExist
      (log_error
         ("VerificationAttempt with id " ++ str_of_int attempt_id
          ++ " was not found when updating the attempt to status="
          ++ status) ;;
       raise VerificationAttempt_DoesNotExist) ;;
  let attempt := VerificationAttempt.set_status status attempt in
  save attempt.

(** Every stored row has a status of the list: the invariant that the
    check in [update_verification_attempt_status] is there for. *)
Definition statuses_listed (w : World) : Prop :=
  forall pk r,
    db_rows w !! pk = Some r -> In (VerificationAttempt.status r) status_list.

(** ** Callers *)

(** One call of the API, as a plugin makes it. *)
Inductive ApiCall :=
| Call_send_approval_email (attempt : VerificationAttempt.t)
| Call_create_verification_attempt (user : User.t) (name status : string)
    (expiration_datetime : option datetime)
| Call_update_verification_attempt_status (attempt_id : Z) (status : string).

(** The world a call leaves, whether it returned or raised. *)
Definition run_call (c : ApiCall) (w : World) : World :=
  match c with
  | Call_send_approval_email attempt =>
      world (send_approval_email attempt w)
  | Call_create_verification_attempt user name status expiration_datetime =>
      world (create_verification_attempt user name status expiration_datetime w)
  | Call_update_verification_attempt_status attempt_id status =>
      world (update_verification_attempt_status attempt_id status w)
  end.

(** Calls made one after the other. *)
Definition run_calls (calls : list ApiCall) (w : World) : World :=
  fold_left (fun w' c => run_call c w') calls w.

Definition is_create (c : ApiCall) : bool :=
  match c with
  | Call_create_verification_attempt _ _ _ _ => true
  | _ => false
  end.

Definition count_creates (calls : list ApiCall) : nat :=
  length (List.filter is_create calls).

(** ** The shape of a printed date *)

Definition is_digit (c : ascii) : bool :=
  Nat.leb 48 (nat_of_ascii c) && Nat.leb (nat_of_ascii c) 57.

Definition two_digits (s : string) : bool :=
  match s with
  | String a (String b "") => is_digit a && is_digit b
  | _ => false
  end.

Definition four_digits (s : string) : bool :=
  match s with
  | String a (String b (String c (String d ""))) =>
      is_digit a && is_digit b && is_digit c && is_digit d
  | _ => false
  end.

(** Two digits, a slash, two digits, a slash, four digits. *)
Definition date_shape (s : string) : bool :=
  match s with
  | String m1 (String m2 (String s1 (String d1 (String d2 (String s2 y))))) =>
      is_digit m1 && is_digit m2 && Ascii.eqb s1 "/" &&
      is_digit d1 && is_digit d2 && Ascii.eqb s2 "/" && four_digits y
  | _ => false
  end.

(** [f] holds on the [n] integers from [lo] on. *)
Fixpoint forall_from (f : Z -> bool) (lo : Z) (n : nat) : bool :=
  match n with
  | O => true
  | S k => f lo && forall_from f (lo + 1) k
  end.

(** ** Running the statements *)

Ltac run :=
  unfold result, world, bind, try_except, ret, raise, log_error, get_settings,
    objects_get, objects_create, save, delay,
    call_send_verification_approved_email, date_method, get_profile,
    lift_result;
  cbn [fst snd].

Lemma py_in_In (x : string) (l : list string) : py_in x l = true <-> In x l.
Proof.
  unfold py_in. rewrite existsb_exists. split.
  - intros (y & Hy & Heq). apply String.eqb_eq in Heq. now subst.
  - intros Hx. exists x. split; [assumption | apply String.eqb_refl].
Qed.

Lemma py_in_not_In (x : string) (l : list string) : py_in x l = false <-> ~ In x l.
Proof.
  rewrite <- py_in_In. destruct (py_in x l); split; intros; congruence.
Qed.

(** Every name the comprehension keeps is an attribute that does not
    start with two underscores. *)
Lemma status_list_spec (attr : string) :
  In attr status_list <->
  In attr dir_VerificationAttemptStatus /\ startswith attr "__" = false.
Proof.
  unfold status_list. rewrite filter_In, negb_true_iff. reflexivity.
Qed.

(** The three ways [update_verification_attempt_status] can go. *)
Lemma update_invalid (attempt_id : Z) (status : string) (w : World) :
  ~ In status status_list ->
  update_verification_attempt_status attempt_id status w =
  (Raise VerificationAttemptInvalidStatus,
   add_log
     ("update_verification_attempt_status called with invalid status. "
      ++ "Status must be one of: " ++ repr_list status_list) w).
Proof.
  intros Hbad. apply py_in_not_In in Hbad.
  unfold update_verification_attempt_status. run. now rewrite Hbad.
Qed.

Lemma update_not_found (attempt_id : Z) (status : string) (w : World) :
  In status status_list ->
  db_rows w !! attempt_id = None ->
  update_verification_attempt_status attempt_id status w =
  (Raise VerificationAttempt_DoesNotExist,
   add_log
     ("VerificationAttempt with id " ++ str_of_int attempt_id
      ++ " was not found when updating the attempt to status=" ++ status)
     (add_query (SelectById attempt_id) w)).
Proof.
  intros Hok Hnone. apply py_in_In in Hok.
  unfold update_verification_attempt_status. run.
  rewrite Hok. cbn. now rewrite Hnone.
Qed.

Lemma update_found (attempt_id : Z) (status : string) (w : World)
    (r : VerificationAttempt.Row) :
  In status status_list ->
  db_rows w !! attempt_id = Some r ->
  update_verification_attempt_status attempt_id status w =
  (Return tt,
   add_query (UpdateRow attempt_id)
     (set_db_rows
        (<[attempt_id :=
             VerificationAttempt.row
               (VerificationAttempt.set_status status
                  {| VerificationAttempt.id := attempt_id;
                     VerificationAttempt.row := r |})]> (db_rows w))
        (add_query (SelectById attempt_id) w))).
Proof.
  intros Hok Hsome. apply py_in_In in Hok.
  unfold update_verification_attempt_status. run.
  rewrite Hok. cbn. now rewrite Hsome.
Qed.

(** ** update_verification_attempt_status *)

(** C1.  A status that is not in the list of allowed values makes
    [update_verification_attempt_status] raise
    [VerificationAttemptInvalidStatus]; the table is neither read nor
    written: rows, sequence and the statements sent to it are as before. *)
Theorem update_invalid_status_raises (attempt_id : Z) (status : string) (w : World) :
  ~ In status status_list ->
  let r := update_verification_attempt_status attempt_id status w in
  result r = Raise VerificationAttemptInvalidStatus /\
  db_rows (world r) = db_rows w /\
  db_seq (world r) = db_seq w /\
  db_queries (world r) = db_queries w.
Proof.
  intros Hbad r. subst r. rewrite (update_invalid _ _ _ Hbad).
  repeat split.
Qed.

(** C3.  For an existing attempt and a valid status, the call leaves the
    user, name and expiration_datetime of the addressed row as they were,
    and leaves every other key of the table as it was. *)
Theorem update_changes_only_status (attempt_id : Z) (status : string) (w : World)
    (r : VerificationAttempt.Row) :
  In status status_list ->
  db_rows w !! attempt_id = Some r ->
  let w' := world (update_verification_attempt_status attempt_id status w) in
  (exists r',
      db_rows w' !! attempt_id = Some r' /\
      VerificationAttempt.user r' = VerificationAttempt.user r /\
      VerificationAttempt.name r' = VerificationAttempt.name r /\
      VerificationAttempt.expiration_datetime r' =
        VerificationAttempt.expiration_datetime r) /\
  (forall pk, pk <> attempt_id -> db_rows w' !! pk = db_rows w !! pk).
Proof.
  intros Hok Hsome w'. subst w'. rewrite (update_found _ _ _ _ Hok Hsome).
  unfold world; cbn [snd db_rows add_query set_db_rows]. split.
  - eexists. split; [apply lookup_insert_eq |]. repeat split.
  - intros pk Hne. now apply lookup_insert_ne.
Qed.

(** C4.  For an existing attempt and a valid status, the call returns
    [None], the stored row has the given status afterwards, and the row was
    persisted: the table received the SELECT and then the UPDATE of that
    key. *)
Theorem update_sets_status (attempt_id : Z) (status : string) (w : World)
    (r : VerificationAttempt.Row) :
  In status status_list ->
  db_rows w !! attempt_id = Some r ->
  let res := update_verification_attempt_status attempt_id status w in
  result res = Return tt /\
  VerificationAttempt.status <$> db_rows (world res) !! attempt_id = Some status /\
  db_queries (world res) =
    (db_queries w ++ [SelectById attempt_id; UpdateRow attempt_id])%list.
Proof.
  intros Hok Hsome res. subst res. rewrite (update_found _ _ _ _ Hok Hsome).
  unfold result, world; cbn [fst snd db_rows db_queries add_query set_db_rows].
  repeat split.
  - now rewrite lookup_insert_eq.
  - now rewrite <- app_assoc.
Qed.

(** C8.  The status is checked before the attempt is looked up: with an
    invalid status the call raises [VerificationAttemptInvalidStatus] also
    when no attempt has the given id, and no statement reaches the
    database. *)
Theorem update_checks_status_first (attempt_id : Z) (status : string) (w : World) :
  ~ In status status_list ->
  db_rows w !! attempt_id = None ->
  let r := update_verification_attempt_status attempt_id status w in
  result r = Raise VerificationAttemptInvalidStatus /\
  db_queries (world r) = db_queries w.
Proof.
  intros Hbad _ r. subst r. rewrite (update_invalid _ _ _ Hbad). split; reflexivity.
Qed.

(** C9.  With a valid status and an id that no row has, the call raises
    [VerificationAttempt.DoesNotExist]; no row is created or changed. *)
Theorem update_missing_attempt_raises (attempt_id : Z) (status : string) (w : World) :
  In status status_list ->
  db_rows w !! attempt_id = None ->
  let r := update_verification_attempt_status attempt_id status w in
  result r = Raise VerificationAttempt_DoesNotExist /\
  db_rows (world r) = db_rows w /\
  db_seq (world r) = db_seq w.
Proof.
  intros Hok Hnone r. subst r. rewrite (update_not_found _ _ _ Hok Hnone).
  repeat split.
Qed.

(** ** create_verification_attempt *)

(** C5.  On a table whose keys the sequence has handed out,
    [create_verification_attempt] returns a key that was free, and the
    table afterwards is the old one with exactly one row more, stored
    under that key, whose four fields are the arguments.  With the
    expiration argument left out the stored expiration is [None]. *)
Theorem create_persists_one_record (user : User.t) (name status : string)
    (expiration_datetime : option datetime) (w : World) :
  db_wf w ->
  (let res := create_verification_attempt user name status expiration_datetime w in
   exists new_id,
     result res = Return new_id /\
     db_rows w !! new_id = None /\
     db_rows (world res) =
       <[new_id := {| VerificationAttempt.user := user;
                      VerificationAttempt.name := name;
                      VerificationAttempt.status := status;
                      VerificationAttempt.expiration_datetime :=
                        expiration_datetime |}]> (db_rows w) /\
     size (db_rows (world res)) = S (size (db_rows w))) /\
  (let res := create_verification_attempt_default user name status w in
   exists new_id,
     result res = Return new_id /\
     db_rows w !! new_id = None /\
     db_rows (world res) =
       <[new_id := {| VerificationAttempt.user := user;
                      VerificationAttempt.name := name;
                      VerificationAttempt.status := status;
                      VerificationAttempt.expiration_datetime := None |}]>
         (db_rows w) /\
     size (db_rows (world res)) = S (size (db_rows w))).
Proof.
  intros Hwf.
  assert (Hfree : db_rows w !! (db_seq w + 1) = None).
  { destruct (db_rows w !! (db_seq w + 1)) eqn:E; [| reflexivity].
    assert (db_seq w + 1 <= db_seq w) by (apply Hwf; rewrite E; eauto).
    lia. }
  split; cbv zeta; exists (db_seq w + 1);
    unfold create_verification_attempt_default, create_verification_attempt;
    run; cbn; repeat split; try assumption;
    now apply map_size_insert_None.
Qed.

(** The table stays well formed, so the hypothesis of C5 is an invariant
    of the module and not a demand on the caller. *)
Lemma create_keeps_db_wf (user : User.t) (name status : string)
    (expiration_datetime : option datetime) (w : World) :
  db_wf w ->
  db_wf (world (create_verification_attempt user name status expiration_datetime w)).
Proof.
  intros Hwf pk. unfold create_verification_attempt. run. cbn.
  rewrite lookup_insert_is_Some. intros [<- | [_ Hpk]]; [lia |].
  apply Hwf in Hpk. lia.
Qed.

(** ** send_approval_email *)

(** The five ways [send_approval_email] can go. *)
Lemma send_no_expiration (attempt : VerificationAttempt.t) (w : World) :
  VerificationAttempt.expiration_datetime (VerificationAttempt.row attempt) = None ->
  send_approval_email attempt w =
  (Raise (AttributeError "'NoneType' object has no attribute 'date'"), w).
Proof. intros Hnone. unfold send_approval_email. rewrite Hnone. reflexivity. Qed.

Lemma send_direct (attempt : VerificationAttempt.t) (dt : datetime) (w : World) :
  VerificationAttempt.expiration_datetime (VerificationAttempt.row attempt) = Some dt ->
  truthy (dict_get (VERIFY_STUDENT (settings w)) "USE_DJANGO_MAIL") = false ->
  send_approval_email attempt w =
  (Return tt,
   add_email
     (send_verification_approved_email
        (PyDict {[ "user" :=
                     PyUser (VerificationAttempt.user (VerificationAttempt.row attempt));
                   "expiration_datetime" :=
                     PyStr (strftime (datetime_date dt) "%m/%d/%Y") ]})) w).
Proof.
  intros Hsome Hfalsy. unfold send_approval_email. rewrite Hsome. run.
  now rewrite Hfalsy.
Qed.

Lemma send_no_profile (attempt : VerificationAttempt.t) (dt : datetime) (w : World) :
  VerificationAttempt.expiration_datetime (VerificationAttempt.row attempt) = Some dt ->
  truthy (dict_get (VERIFY_STUDENT (settings w)) "USE_DJANGO_MAIL") = true ->
  User.profile (VerificationAttempt.user (VerificationAttempt.row attempt)) = None ->
  send_approval_email attempt w = (Raise RelatedObjectDoesNotExist, w).
Proof.
  intros Hsome Htruthy Hprofile. unfold send_approval_email. rewrite Hsome. run.
  now rewrite Htruthy, Hprofile.
Qed.

Lemma send_format_error (attempt : VerificationAttempt.t) (dt : datetime)
    (profile : UserProfile.t) (e : Exception) (w : World) :
  VerificationAttempt.expiration_datetime (VerificationAttempt.row attempt) = Some dt ->
  truthy (dict_get (VERIFY_STUDENT (settings w)) "USE_DJANGO_MAIL") = true ->
  User.profile (VerificationAttempt.user (VerificationAttempt.row attempt))
    = Some profile ->
  str_format (gettext "Your {platform_name} ID verification was approved!")
    "platform_name" (PLATFORM_NAME (settings w)) = Raise e ->
  send_approval_email attempt w = (Raise e, w).
Proof.
  intros Hsome Htruthy Hprofile Hformat.
  unfold send_approval_email. rewrite Hsome. run.
  rewrite Htruthy, Hprofile. cbn [fst snd]. now rewrite Hformat.
Qed.

Lemma send_queued (attempt : VerificationAttempt.t) (dt : datetime)
    (profile : UserProfile.t) (subject : string) (w : World) :
  VerificationAttempt.expiration_datetime (VerificationAttempt.row attempt) = Some dt ->
  truthy (dict_get (VERIFY_STUDENT (settings w)) "USE_DJANGO_MAIL") = true ->
  User.profile (VerificationAttempt.user (VerificationAttempt.row attempt))
    = Some profile ->
  str_format (gettext "Your {platform_name} ID verification was approved!")
    "platform_name" (PLATFORM_NAME (settings w)) = Return subject ->
  send_approval_email attempt w =
  (Return tt,
   add_email
     (send_verification_status_email_delay
        (PyDict
           {[ "subject" := PyStr subject;
              "template" := PyStr "emails/passed_verification_email.txt";
              "email" :=
                PyStr (User.email
                         (VerificationAttempt.user (VerificationAttempt.row attempt)));
              "email_vars" :=
                PyDict
                  (<[ "full_name" := PyStr (UserProfile.name profile) ]>
                     (<[ "expiration_datetime" :=
                           PyStr (strftime (datetime_date dt) "%m/%d/%Y") ]>
                        {[ "platform_name" := PyStr (PLATFORM_NAME (settings w)) ]}))
           ]})) w).
Proof.
  intros Hsome Htruthy Hprofile Hformat.
  unfold send_approval_email. rewrite Hsome. run.
  rewrite Htruthy, Hprofile. cbn [fst snd]. now rewrite Hformat.
Qed.

(** Whatever happens, the world afterwards is the old one, with at most one
    call more in the list of calls that reached a back end. *)
Lemma send_approval_email_world (attempt : VerificationAttempt.t) (w : World) :
  world (send_approval_email attempt w) = w \/
  exists c, world (send_approval_email attempt w) = add_email c w.
Proof.
  destruct (VerificationAttempt.expiration_datetime (VerificationAttempt.row attempt))
    as [dt |] eqn:Hexp; [| left; now rewrite (send_no_expiration _ _ Hexp)].
  destruct (truthy (dict_get (VERIFY_STUDENT (settings w)) "USE_DJANGO_MAIL"))
    eqn:Htruthy; [| right; rewrite (send_direct _ _ _ Hexp Htruthy); eauto].
  destruct (User.profile (VerificationAttempt.user (VerificationAttempt.row attempt)))
    as [profile |] eqn:Hprofile;
    [| left; now rewrite (send_no_profile _ _ _ Hexp Htruthy Hprofile)].
  destruct (str_format (gettext "Your {platform_name} ID verification was approved!")
              "platform_name" (PLATFORM_NAME (settings w))) as [subject | e] eqn:Hformat.
  - right. rewrite (send_queued _ _ _ _ _ Hexp Htruthy Hprofile Hformat). eauto.
  - left. now rewrite (send_format_error _ _ _ _ _ Hexp Htruthy Hprofile Hformat).
Qed.

Lemma append_empty_r (s : string) : s ++ "" = s.
Proof.
  induction s as [| c s IH]; [reflexivity |].
  change (String c (s ++ "") = String c s). now rewrite IH.
Qed.

(** What the format of the module prints: month and day on two digits, the
    year on four, with slashes between. *)
Lemma strftime_mdY (d : date) :
  strftime d "%m/%d/%Y" =
  zfill 2 (str_of_int (d_month d)) ++ "/" ++
  zfill 2 (str_of_int (d_day d)) ++ "/" ++
  zfill 4 (str_of_int (d_year d)).
Proof. cbn -[zfill append]. now rewrite append_empty_r. Qed.

(** C10.  When the attempt has no expiration_datetime the call fails with
    an [AttributeError] on [.date()], and nothing has been handed to
    either back end: the world is as it was. *)
Theorem send_approval_email_needs_expiration (attempt : VerificationAttempt.t)
    (w : World) :
  VerificationAttempt.expiration_datetime (VerificationAttempt.row attempt) = None ->
  let r := send_approval_email attempt w in
  (exists msg, result r = Raise (AttributeError msg)) /\
  outbox (world r) = outbox w /\
  world r = w.
Proof.
  intros Hnone r. subst r. unfold send_approval_email. rewrite Hnone. run.
  repeat split. eexists. reflexivity.
Qed.

(** C6, as amended.  When the attempt has an expiration_datetime, and, in
    case [USE_DJANGO_MAIL] is truthy, its user has a profile and the
    subject line formats without error, the call returns and hands exactly
    one call to exactly one back end: the task queue when
    [USE_DJANGO_MAIL] is truthy, the direct function otherwise.  In both
    the expiration date in the context is the date of expiration_datetime
    printed with the format of the module. *)
Theorem send_approval_email_one_backend (attempt : VerificationAttempt.t)
    (dt : datetime) (w : World) :
  VerificationAttempt.expiration_datetime (VerificationAttempt.row attempt) = Some dt ->
  (truthy (dict_get (VERIFY_STUDENT (settings w)) "USE_DJANGO_MAIL") = true ->
   is_Some (User.profile (VerificationAttempt.user (VerificationAttempt.row attempt)))
   /\ exists subject,
        str_format (gettext "Your {platform_name} ID verification was approved!")
          "platform_name" (PLATFORM_NAME (settings w)) = Return subject) ->
  let r := send_approval_email attempt w in
  let expiration := PyStr (strftime (datetime_date dt) "%m/%d/%Y") in
  result r = Return tt /\
  if truthy (dict_get (VERIFY_STUDENT (settings w)) "USE_DJANGO_MAIL") then
    exists context email_vars,
      outbox (world r) =
        (outbox w ++ [send_verification_status_email_delay (PyDict context)])%list /\
      context !! "email_vars" = Some (PyDict email_vars) /\
      email_vars !! "expiration_datetime" = Some expiration
  else
    exists context,
      outbox (world r) =
        (outbox w ++ [send_verification_approved_email (PyDict context)])%list /\
      context !! "expiration_datetime" = Some expiration.
Proof.
  intros Hsome Hqueue r expiration. subst r expiration.
  destruct (truthy (dict_get (VERIFY_STUDENT (settings w)) "USE_DJANGO_MAIL"))
    eqn:Htruthy.
  - destruct (Hqueue eq_refl) as [[profile Hprofile] [subject Hformat]].
    rewrite (send_queued _ _ _ _ _ Hsome Htruthy Hprofile Hformat).
    split; [reflexivity |].
    eexists. eexists. split; [reflexivity |]. split; reflexivity.
  - rewrite (send_direct _ _ _ Hsome Htruthy).
    split; [reflexivity |]. eexists. split; reflexivity.
Qed.

(** Sending mail does not touch the table. *)
Lemma send_approval_email_db_rows (attempt : VerificationAttempt.t) (w : World) :
  db_rows (world (send_approval_email attempt w)) = db_rows w.
Proof.
  destruct (send_approval_email_world attempt w) as [-> | [c ->]]; reflexivity.
Qed.

(** ** The module as a whole *)

(** [update_verification_attempt_status] keeps the statuses of the table
    inside the list, on every path. *)
Lemma update_keeps_statuses_listed (attempt_id : Z) (status : string) (w : World) :
  statuses_listed w ->
  statuses_listed (world (update_verification_attempt_status attempt_id status w)).
Proof.
  intros Hinv. destruct (py_in status status_list) eqn:Hin.
  - apply py_in_In in Hin.
    destruct (db_rows w !! attempt_id) as [r |] eqn:Hrow.
    + rewrite (update_found _ _ _ _ Hin Hrow). intros pk r'. cbn.
      rewrite lookup_insert_Some. intros [[_ <-] | [_ Hpk]]; [exact Hin |].
      exact (Hinv _ _ Hpk).
    + now rewrite (update_not_found _ _ _ Hin Hrow).
  - apply py_in_not_In in Hin. now rewrite (update_invalid _ _ _ Hin).
Qed.

(** [create_verification_attempt] keeps them inside the list when the
    status it is given is in the list; it does not look at the status. *)
Lemma create_keeps_statuses_listed (user : User.t) (name status : string)
    (expiration_datetime : option datetime) (w : World) :
  In status status_list ->
  statuses_listed w ->
  statuses_listed
    (world (create_verification_attempt user name status expiration_datetime w)).
Proof.
  intros Hin Hinv pk r. unfold create_verification_attempt. run. cbn.
  rewrite lookup_insert_Some. intros [[_ <-] | [_ Hpk]]; [exact Hin |].
  exact (Hinv _ _ Hpk).
Qed.

Lemma send_approval_email_keeps_statuses_listed (attempt : VerificationAttempt.t)
    (w : World) :
  statuses_listed w ->
  statuses_listed (world (send_approval_email attempt w)).
Proof.
  intros Hinv pk r. rewrite send_approval_email_db_rows. apply Hinv.
Qed.

Lemma update_keeps_db_wf (attempt_id : Z) (status : string) (w : World) :
  db_wf w ->
  db_wf (world (update_verification_attempt_status attempt_id status w)).
Proof.
  intros Hwf. destruct (py_in status status_list) eqn:Hin.
  - apply py_in_In in Hin.
    destruct (db_rows w !! attempt_id) as [r |] eqn:Hrow.
    + rewrite (update_found _ _ _ _ Hin Hrow). intros pk. cbn.
      rewrite lookup_insert_is_Some. intros [<- | [_ Hpk]].
      * apply Hwf. rewrite Hrow. eauto.
      * now apply Hwf.
    + now rewrite (update_not_found _ _ _ Hin Hrow).
  - apply py_in_not_In in Hin. now rewrite (update_invalid _ _ _ Hin).
Qed.

(** C7.  A key that has a row before a call of any of the three functions
    has a row after it, whether the call returned or raised. *)
Theorem no_operation_deletes (w : World) (pk : Z) :
  is_Some (db_rows w !! pk) ->
  (forall attempt,
      is_Some (db_rows (world (send_approval_email attempt w)) !! pk)) /\
  (forall user name status expiration_datetime,
      is_Some (db_rows (world (create_verification_attempt
                                 user name status expiration_datetime w)) !! pk)) /\
  (forall attempt_id status,
      is_Some (db_rows (world (update_verification_attempt_status
                                 attempt_id status w)) !! pk)).
Proof.
  intros Hpk. repeat split.
  - intros attempt. now rewrite send_approval_email_db_rows.
  - intros user name status expiration_datetime.
    unfold create_verification_attempt. run. cbn.
    rewrite lookup_insert_is_Some. destruct (decide (db_seq w + 1 = pk)); auto.
  - intros attempt_id status.
    destruct (py_in status status_list) eqn:Hin.
    + apply py_in_In in Hin.
      destruct (db_rows w !! attempt_id) as [r |] eqn:Hrow.
      * rewrite (update_found _ _ _ _ Hin Hrow). cbn.
        rewrite lookup_insert_is_Some. destruct (decide (attempt_id = pk)); auto.
      * now rewrite (update_not_found _ _ _ Hin Hrow).
    + apply py_in_not_In in Hin. now rewrite (update_invalid _ _ _ Hin).
Qed.

(** ** Further properties of update_verification_attempt_status *)

Ltac update_cases attempt_id status w :=
  let Hin := fresh "Hin" in
  let Hrow := fresh "Hrow" in
  let r := fresh "r" in
  destruct (py_in status status_list) eqn:Hin;
  [ apply py_in_In in Hin;
    destruct (db_rows w !! attempt_id) as [r |] eqn:Hrow;
    [ rewrite (update_found _ _ _ _ Hin Hrow)
    | rewrite (update_not_found _ _ _ Hin Hrow) ]
  | apply py_in_not_In in Hin; rewrite (update_invalid _ _ _ Hin) ].

(** The rows a call of [update_verification_attempt_status] leaves. *)
Lemma update_db_rows (attempt_id : Z) (status : string) (w : World) :
  db_rows (world (update_verification_attempt_status attempt_id status w)) =
  if py_in status status_list then
    match db_rows w !! attempt_id with
    | Some r =>
        <[attempt_id :=
            {| VerificationAttempt.user := VerificationAttempt.user r;
               VerificationAttempt.name := VerificationAttempt.name r;
               VerificationAttempt.status := status;
               VerificationAttempt.expiration_datetime :=
                 VerificationAttempt.expiration_datetime r |}]> (db_rows w)
    | None => db_rows w
    end
  else db_rows w.
Proof.
  destruct (py_in status status_list) eqn:Hin.
  - apply py_in_In in Hin.
    destruct (db_rows w !! attempt_id) as [r |] eqn:Hrow.
    + now rewrite (update_found _ _ _ _ Hin Hrow).
    + now rewrite (update_not_found _ _ _ Hin Hrow).
  - apply py_in_not_In in Hin. now rewrite (update_invalid _ _ _ Hin).
Qed.

Lemma update_db_seq (attempt_id : Z) (status : string) (w : World) :
  db_seq (world (update_verification_attempt_status attempt_id status w)) = db_seq w.
Proof. update_cases attempt_id status w; reflexivity. Qed.

(** X1.  What decides the outcome of [update_verification_attempt_status]:
    it returns exactly when the status is in the list and the id has a
    row, raises [DoesNotExist] exactly when the status is in the list and
    the id has no row, and raises [VerificationAttemptInvalidStatus]
    exactly when the status is not in the list. *)
Theorem update_outcome (attempt_id : Z) (status : string) (w : World) :
  let res := result (update_verification_attempt_status attempt_id status w) in
  (res = Return tt <->
     In status status_list /\ is_Some (db_rows w !! attempt_id)) /\
  (res = Raise VerificationAttempt_DoesNotExist <->
     In status status_list /\ db_rows w !! attempt_id = None) /\
  (res = Raise VerificationAttemptInvalidStatus <-> ~ In status status_list).
Proof.
  cbv zeta. update_cases attempt_id status w; cbn [result fst].
  - repeat split; try discriminate; try (intros; eauto; fail).
    + intros [_ Hnone]. discriminate Hnone.
    + intros Hbad. contradiction.
  - repeat split; try discriminate; try (intros; eauto; fail).
    + intros [_ [x Hx]]. discriminate Hx.
    + intros Hbad. contradiction.
  - repeat split; try discriminate; try (intros; eauto; fail);
      intros [Hok _]; contradiction.
Qed.

(** X2.  A name that starts with two underscores is never accepted as a
    status, whatever the class holds: [dir] lists such names, the
    comprehension drops them. *)
Theorem update_refuses_dunder_names (attempt_id : Z) (status : string) (w : World) :
  startswith status "__" = true ->
  let r := update_verification_attempt_status attempt_id status w in
  result r = Raise VerificationAttemptInvalidStatus /\
  db_rows (world r) = db_rows w.
Proof.
  intros Hdunder r. subst r.
  assert (Hbad : ~ In status status_list).
  { rewrite status_list_spec. intros [_ Hno]. congruence. }
  now rewrite (update_invalid _ _ _ Hbad).
Qed.

(** X3.  The error log: a call that returns writes nothing to it, a call
    that raises has written exactly one line. *)
Theorem update_logs_iff_raises (attempt_id : Z) (status : string) (w : World) :
  let r := update_verification_attempt_status attempt_id status w in
  match result r with
  | Return _ => log (world r) = log w
  | Raise _ => exists line, log (world r) = (log w ++ [line])%list
  end.
Proof.
  cbv zeta. update_cases attempt_id status w; cbn; eauto.
Qed.

(** X4.  Neither [update_verification_attempt_status] nor
    [create_verification_attempt] hands anything to an email back end; a
    status set to approved sends no approval mail by itself. *)
Theorem no_email_outside_send_approval_email (w : World) :
  (forall attempt_id status,
      outbox (world (update_verification_attempt_status attempt_id status w))
      = outbox w) /\
  (forall user name status expiration_datetime,
      outbox (world (create_verification_attempt
                       user name status expiration_datetime w))
      = outbox w).
Proof.
  split.
  - intros attempt_id status. update_cases attempt_id status w; reflexivity.
  - reflexivity.
Qed.

(** X5.  [update_verification_attempt_status] never adds a key: the keys
    of the table and the sequence are the same after every call. *)
Theorem update_never_creates (attempt_id : Z) (status : string) (w : World) :
  let w' := world (update_verification_attempt_status attempt_id status w) in
  dom (db_rows w') = dom (db_rows w) /\ db_seq w' = db_seq w.
Proof.
  cbv zeta. split; [| apply update_db_seq].
  update_cases attempt_id status w; cbn; try reflexivity.
  apply dom_insert_lookup_L. rewrite Hrow. eauto.
Qed.

(** X6.  Calling twice with the same arguments is the same as calling
    once: same outcome, same rows. *)
Theorem update_idempotent (attempt_id : Z) (status : string) (w : World) :
  let r1 := update_verification_attempt_status attempt_id status w in
  let r2 := update_verification_attempt_status attempt_id status (world r1) in
  result r2 = result r1 /\ db_rows (world r2) = db_rows (world r1).
Proof.
  cbv zeta. update_cases attempt_id status w.
  - match goal with
    | |- context [update_verification_attempt_status _ _ ?w1] =>
        assert (Hrow1 : exists r1, db_rows w1 !! attempt_id = Some r1)
          by (cbn; rewrite lookup_insert_eq; eauto);
        destruct Hrow1 as [r1 Hrow1];
        rewrite (update_found _ _ _ _ Hin Hrow1)
    end.
    cbn in Hrow1. rewrite lookup_insert_eq in Hrow1.
    injection Hrow1 as <-. cbn. split; [reflexivity |].
    now rewrite insert_insert_eq.
  - match goal with
    | |- context [update_verification_attempt_status _ _ ?w1] =>
        assert (Hrow1 : db_rows w1 !! attempt_id = None) by exact Hrow;
        rewrite (update_not_found _ _ _ Hin Hrow1)
    end.
    split; reflexivity.
  - rewrite (update_invalid _ _ _ Hin). split; reflexivity.
Qed.

(** X7.  The last valid status wins: after any earlier call for the same
    id, a call with a status of the list leaves the rows it would have
    left without the earlier call. *)
Theorem update_last_write_wins (attempt_id : Z) (status1 status2 : string)
    (w : World) :
  In status2 status_list ->
  db_rows (world (update_verification_attempt_status attempt_id status2
                    (world (update_verification_attempt_status
                              attempt_id status1 w)))) =
  db_rows (world (update_verification_attempt_status attempt_id status2 w)).
Proof.
  intros Hok2. apply py_in_In in Hok2.
  rewrite !update_db_rows, Hok2.
  destruct (py_in status1 status_list); [| reflexivity].
  destruct (db_rows w !! attempt_id) as [r |] eqn:Hrow; [| now rewrite Hrow].
  rewrite lookup_insert_eq. cbn. now rewrite insert_insert_eq.
Qed.

(** ** Further properties of create_verification_attempt *)

(** X8.  A created attempt can be updated at once: the id that
    [create_verification_attempt] returns is found by
    [update_verification_attempt_status], which returns and leaves the row
    with the new status and the user, name and expiration given at
    creation. *)
Theorem create_then_update (user : User.t) (name status status' : string)
    (expiration_datetime : option datetime) (w : World) :
  In status' status_list ->
  let r1 := create_verification_attempt user name status expiration_datetime w in
  exists new_id,
    result r1 = Return new_id /\
    let r2 := update_verification_attempt_status new_id status' (world r1) in
    result r2 = Return tt /\
    db_rows (world r2) !! new_id =
      Some {| VerificationAttempt.user := user;
              VerificationAttempt.name := name;
              VerificationAttempt.status := status';
              VerificationAttempt.expiration_datetime := expiration_datetime |}.
Proof.
  intros Hok. cbv zeta. exists (db_seq w + 1). split; [reflexivity |].
  match goal with
  | |- context [update_verification_attempt_status _ _ ?w1] =>
      assert (Hrow : db_rows w1 !! (db_seq w + 1) =
                     Some {| VerificationAttempt.user := user;
                             VerificationAttempt.name := name;
                             VerificationAttempt.status := status;
                             VerificationAttempt.expiration_datetime :=
                               expiration_datetime |})
        by (cbn; apply lookup_insert_eq);
      rewrite (update_found _ _ _ _ Hok Hrow)
  end.
  split; [reflexivity |]. cbn. apply lookup_insert_eq.
Qed.

(** X9.  Two calls in a row return consecutive ids, and both rows are in
    the table afterwards, each with its own fields. *)
Theorem create_twice (user1 user2 : User.t) (name1 status1 name2 status2 : string)
    (expiration1 expiration2 : option datetime) (w : World) :
  let r1 := create_verification_attempt user1 name1 status1 expiration1 w in
  let r2 := create_verification_attempt user2 name2 status2 expiration2 (world r1) in
  exists id1,
    result r1 = Return id1 /\
    result r2 = Return (id1 + 1) /\
    db_rows (world r2) !! id1 =
      Some {| VerificationAttempt.user := user1;
              VerificationAttempt.name := name1;
              VerificationAttempt.status := status1;
              VerificationAttempt.expiration_datetime := expiration1 |} /\
    db_rows (world r2) !! (id1 + 1) =
      Some {| VerificationAttempt.user := user2;
              VerificationAttempt.name := name2;
              VerificationAttempt.status := status2;
              VerificationAttempt.expiration_datetime := expiration2 |}.
Proof.
  cbv zeta. exists (db_seq w + 1).
  unfold create_verification_attempt. run. cbn.
  repeat split.
  - rewrite lookup_insert_ne by lia. apply lookup_insert_eq.
  - apply lookup_insert_eq.
Qed.

(** ** Further properties of send_approval_email *)

(** X10.  [send_approval_email] acts on the email back ends only: rows,
    sequence, statements sent to the table, error log and settings are as
    before, whether it returned or raised. *)
Theorem send_approval_email_frame (attempt : VerificationAttempt.t) (w : World) :
  let w' := world (send_approval_email attempt w) in
  db_rows w' = db_rows w /\ db_seq w' = db_seq w /\
  db_queries w' = db_queries w /\ log w' = log w /\ settings w' = settings w.
Proof.
  cbv zeta.
  destruct (send_approval_email_world attempt w) as [-> | [c ->]]; repeat split.
Qed.

(** X11.  Without a [USE_DJANGO_MAIL] key in [settings.VERIFY_STUDENT] the
    direct back end is used: it is called once, with the user of the
    attempt and the printed expiration date, and the task queue gets
    nothing. *)
Theorem send_approval_email_setting_missing (attempt : VerificationAttempt.t)
    (dt : datetime) (w : World) :
  VERIFY_STUDENT (settings w) !! "USE_DJANGO_MAIL" = None ->
  VerificationAttempt.expiration_datetime (VerificationAttempt.row attempt) = Some dt ->
  let r := send_approval_email attempt w in
  result r = Return tt /\
  outbox (world r) =
    (outbox w ++
     [send_verification_approved_email
        (PyDict {[ "user" :=
                     PyUser (VerificationAttempt.user (VerificationAttempt.row attempt));
                   "expiration_datetime" :=
                     PyStr (strftime (datetime_date dt) "%m/%d/%Y") ]})])%list.
Proof.
  intros Hmissing Hsome r. subst r.
  assert (Hfalsy :
    truthy (dict_get (VERIFY_STUDENT (settings w)) "USE_DJANGO_MAIL") = false)
    by (unfold dict_get; now rewrite Hmissing).
  rewrite (send_direct _ _ _ Hsome Hfalsy). split; reflexivity.
Qed.


(** [str.format] on the subject line. *)
Lemma subject_format (platform_name : string) :
  str_format "Your {platform_name} ID verification was approved!"
    "platform_name" platform_name =
  Return ("Your " ++ platform_name ++ " ID verification was approved!").
Proof. vm_compute. reflexivity. Qed.

(** X13.  With no translation of the subject line and a user that has a
    profile, the mail handed to the task queue has the subject that the
    tests expect, built from [settings.PLATFORM_NAME]; it goes to the email
    address of the user of the attempt and uses the template for passed
    verifications. *)
Theorem send_approval_email_subject (attempt : VerificationAttempt.t)
    (dt : datetime) (w : World) :
  gettext "Your {platform_name} ID verification was approved!" =
    "Your {platform_name} ID verification was approved!" ->
  truthy (dict_get (VERIFY_STUDENT (settings w)) "USE_DJANGO_MAIL") = true ->
  VerificationAttempt.expiration_datetime (VerificationAttempt.row attempt) = Some dt ->
  is_Some (User.profile (VerificationAttempt.user (VerificationAttempt.row attempt))) ->
  exists context,
    outbox (world (send_approval_email attempt w)) =
      (outbox w ++ [send_verification_status_email_delay (PyDict context)])%list /\
    context !! "subject" =
      Some (PyStr ("Your " ++ PLATFORM_NAME (settings w)
                   ++ " ID verification was approved!")) /\
    context !! "email" =
      Some (PyStr (User.email
                     (VerificationAttempt.user (VerificationAttempt.row attempt)))) /\
    context !! "template" =
      Some (PyStr "emails/passed_verification_email.txt").
Proof.
  intros Hgettext Htruthy Hsome [profile Hprofile].
  assert (Hformat :
    str_format (gettext "Your {platform_name} ID verification was approved!")
      "platform_name" (PLATFORM_NAME (settings w)) =
    Return ("Your " ++ PLATFORM_NAME (settings w)
            ++ " ID verification was approved!"))
    by (rewrite Hgettext; apply subject_format).
  rewrite (send_queued _ _ _ _ _ Hsome Htruthy Hprofile Hformat).
  eexists. split; [reflexivity |]. repeat split; reflexivity.
Qed.

(** ** The printed expiration date *)

Lemma forall_from_spec (f : Z -> bool) (n : nat) :
  forall lo, forall_from f lo n = true ->
  forall z, lo <= z < lo + Z.of_nat n -> f z = true.
Proof.
  induction n as [| k IH]; intros lo Hall z Hz; [lia |].
  cbn [forall_from] in Hall. apply andb_true_iff in Hall as [Hlo Hrest].
  destruct (Z.eq_dec z lo) as [-> | Hne]; [exact Hlo |].
  apply (IH (lo + 1) Hrest). lia.
Qed.

Lemma two_digits_upto_31 (n : Z) :
  1 <= n <= 31 -> two_digits (zfill 2 (str_of_int n)) = true.
Proof.
  intros Hn.
  apply (forall_from_spec (fun k => two_digits (zfill 2 (str_of_int k))) 31 1);
    [vm_compute; reflexivity | lia].
Qed.

Lemma four_digits_year (n : Z) :
  1000 <= n <= 9999 -> four_digits (zfill 4 (str_of_int n)) = true.
Proof.
  intros Hn.
  apply (forall_from_spec (fun k => four_digits (zfill 4 (str_of_int k)))
           (Z.to_nat 9000) 1000);
    [vm_compute; reflexivity | lia].
Qed.

(** X14.  For an expiration in a month 1 to 12, on a day 1 to 31, in a
    year of four digits, the date that [send_approval_email] prints is two
    digits, a slash, two digits, a slash and four digits: month and day
    are padded with a zero. *)
Theorem expiration_date_shape (dt : datetime) :
  1 <= month dt <= 12 ->
  1 <= day dt <= 31 ->
  1000 <= year dt <= 9999 ->
  date_shape (strftime (datetime_date dt) "%m/%d/%Y") = true.
Proof.
  intros Hm Hd Hy. rewrite strftime_mdY. cbn [datetime_date d_month d_day d_year].
  assert (Hm' : two_digits (zfill 2 (str_of_int (month dt))) = true)
    by (apply two_digits_upto_31; lia).
  assert (Hd' : two_digits (zfill 2 (str_of_int (day dt))) = true)
    by (apply two_digits_upto_31; lia).
  assert (Hy' : four_digits (zfill 4 (str_of_int (year dt))) = true)
    by (apply four_digits_year; lia).
  destruct (zfill 2 (str_of_int (month dt))) as [| m1 [| m2 [| ? ?]]];
    try discriminate Hm'.
  destruct (zfill 2 (str_of_int (day dt))) as [| d1 [| d2 [| ? ?]]];
    try discriminate Hd'.
  cbn [two_digits] in Hm', Hd'.
  apply andb_true_iff in Hm' as [Hm1 Hm2].
  apply andb_true_iff in Hd' as [Hd1 Hd2].
  change (date_shape
            (String m1 (String m2 (String "/" (String d1 (String d2
               (String "/" (zfill 4 (str_of_int (year dt))))))))) = true).
  cbn [date_shape]. rewrite Hm1, Hm2, Hd1, Hd2, Hy'. reflexivity.
Qed.

(** ** Sequences of calls *)

Lemma send_approval_email_db_seq (attempt : VerificationAttempt.t) (w : World) :
  db_seq (world (send_approval_email attempt w)) = db_seq w.
Proof.
  destruct (send_approval_email_world attempt w) as [-> | [c ->]]; reflexivity.
Qed.

Lemma run_calls_cons (c : ApiCall) (calls : list ApiCall) (w : World) :
  run_calls (c :: calls) w = run_calls calls (run_call c w).
Proof. reflexivity. Qed.

(** One call: the table stays well formed, and it grows by one row and the
    sequence by one exactly when the call is a creation. *)
Lemma run_call_counts (c : ApiCall) (w : World) :
  db_wf w ->
  db_wf (run_call c w) /\
  db_seq (run_call c w) = db_seq w + Z.of_nat (if is_create c then 1 else 0) /\
  size (db_rows (run_call c w)) =
    (size (db_rows w) + (if is_create c then 1 else 0))%nat.
Proof.
  intros Hwf. destruct c as [attempt | user name status expiration | attempt_id status];
    cbn [run_call is_create].
  - split; [| split].
    + intros pk. rewrite send_approval_email_db_rows, send_approval_email_db_seq.
      apply Hwf.
    + rewrite send_approval_email_db_seq. cbn. lia.
    + rewrite send_approval_email_db_rows. lia.
  - split; [now apply create_keeps_db_wf |]. split; [reflexivity |].
    unfold create_verification_attempt. run. cbn.
    rewrite map_size_insert_None; [lia |].
    destruct (db_rows w !! (db_seq w + 1)) eqn:E; [| reflexivity].
    assert (db_seq w + 1 <= db_seq w) by (apply Hwf; rewrite E; eauto). lia.
  - split; [now apply update_keeps_db_wf |]. split.
    + rewrite update_db_seq. cbn. lia.
    + rewrite update_db_rows.
      destruct (py_in status status_list); [| lia].
      destruct (db_rows w !! attempt_id) as [r |] eqn:Hrow; [| lia].
      rewrite map_size_insert_Some by (rewrite Hrow; eauto). lia.
Qed.

(** X15.  Rows come from [create_verification_attempt] only, one for each
    call, and none goes away: after any calls on a well formed table, the
    table is well formed, and the sequence and the number of rows have
    grown by the number of creations among the calls. *)
Theorem run_calls_counts (calls : list ApiCall) (w : World) :
  db_wf w ->
  db_wf (run_calls calls w) /\
  db_seq (run_calls calls w) = db_seq w + Z.of_nat (count_creates calls) /\
  size (db_rows (run_calls calls w)) =
    (size (db_rows w) + count_creates calls)%nat.
Proof.
  revert w. induction calls as [| c calls IH]; intros w Hwf.
  - cbn. repeat split; [exact Hwf | lia | lia].
  - rewrite run_calls_cons.
    destruct (run_call_counts c w Hwf) as (Hwf1 & Hseq1 & Hsize1).
    destruct (IH _ Hwf1) as (Hwf2 & Hseq2 & Hsize2).
    split; [exact Hwf2 |]. rewrite Hseq2, Hsize2, Hseq1, Hsize1.
    unfold count_creates. cbn [List.filter].
    destruct (is_create c); cbn [length]; split; lia.
Qed.

(** One call keeps every row in place, with its user, name and expiration;
    its status is as before or one of the list. *)
Lemma run_call_row (c : ApiCall) (w : World) (pk : Z) (r : VerificationAttempt.Row) :
  db_wf w ->
  db_rows w !! pk = Some r ->
  exists r',
    db_rows (run_call c w) !! pk = Some r' /\
    VerificationAttempt.user r' = VerificationAttempt.user r /\
    VerificationAttempt.name r' = VerificationAttempt.name r /\
    VerificationAttempt.expiration_datetime r' =
      VerificationAttempt.expiration_datetime r /\
    (VerificationAttempt.status r' = VerificationAttempt.status r \/
     In (VerificationAttempt.status r') status_list).
Proof.
  intros Hwf Hpk.
  destruct c as [attempt | user name status expiration | attempt_id status];
    cbn [run_call].
  - exists r. rewrite send_approval_email_db_rows. auto 10.
  - exists r. unfold create_verification_attempt. run. cbn.
    rewrite lookup_insert_ne; [auto 10 |].
    assert (pk <= db_seq w) by (apply Hwf; rewrite Hpk; eauto). lia.
  - rewrite update_db_rows.
    destruct (py_in status status_list) eqn:Hin; [| exists r; auto 10].
    destruct (db_rows w !! attempt_id) as [r0 |] eqn:Hrow; [| exists r; auto 10].
    destruct (decide (attempt_id = pk)) as [-> | Hne].
    + rewrite lookup_insert_eq. eexists. split; [reflexivity |].
      assert (r0 = r) by congruence. subst r0. cbn.
      apply py_in_In in Hin. auto 10.
    + rewrite lookup_insert_ne by exact Hne. exists r. auto 10.
Qed.

(** X16.  An attempt changes through its status only: after any calls on a
    well formed table a row that was there is still there, with the user,
    name and expiration it had; its status is the one it had or one of the
    list. *)
Theorem run_calls_row (calls : list ApiCall) (w : World) (pk : Z)
    (r : VerificationAttempt.Row) :
  db_wf w ->
  db_rows w !! pk = Some r ->
  exists r',
    db_rows (run_calls calls w) !! pk = Some r' /\
    VerificationAttempt.user r' = VerificationAttempt.user r /\
    VerificationAttempt.name r' = VerificationAttempt.name r /\
    VerificationAttempt.expiration_datetime r' =
      VerificationAttempt.expiration_datetime r /\
    (VerificationAttempt.status r' = VerificationAttempt.status r \/
     In (VerificationAttempt.status r') status_list).
Proof.
  revert w r. induction calls as [| c calls IH]; intros w r Hwf Hpk.
  - exists r. cbn. auto 10.
  - rewrite run_calls_cons.
    destruct (run_call_row c w pk r Hwf Hpk) as (r1 & Hpk1 & Hu1 & Hn1 & He1 & Hs1).
    destruct (run_call_counts c w Hwf) as (Hwf1 & _).
    destruct (IH _ r1 Hwf1 Hpk1) as (r2 & Hpk2 & Hu2 & Hn2 & He2 & Hs2).
    exists r2. split; [exact Hpk2 |].
    split; [congruence |]. split; [congruence |]. split; [congruence |].
    destruct Hs2 as [Hs2 | Hs2]; [| now right].
    destruct Hs1 as [Hs1 | Hs1]; [left; congruence | right; now rewrite Hs2].
Qed.

(** X17.  Callers that create attempts with statuses of the list only keep
    every stored status in the list, whatever else they call. *)
Theorem run_calls_statuses_listed (calls : list ApiCall) (w : World) :
  Forall (fun c =>
            match c with
            | Call_create_verification_attempt _ _ status _ =>
                In status status_list
            | _ => True
            end) calls ->
  statuses_listed w ->
  statuses_listed (run_calls calls w).
Proof.
  intros Hcalls. revert w.
  induction Hcalls as [| c calls Hc _ IH]; intros w Hinv; [exact Hinv |].
  rewrite run_calls_cons. apply IH.
  destruct c as [attempt | user name status expiration | attempt_id status];
    cbn [run_call].
  - now apply send_approval_email_keeps_statuses_listed.
  - now apply create_keeps_statuses_listed.
  - now apply update_keeps_statuses_listed.
Qed.

End Api.

(** ** The tests of [tests/test_api.py], run on the model *)

Example test_status_list :
  status_list sample_dir = ["approved"; "created"; "denied"; "pending"].
Proof. reflexivity. Qed.

Example test_create_verification_attempt :
  result (create_verification_attempt sample_user "Tester McTest" "created"
            (Some sample_datetime) (sample_world (PyBool true))) = Return 2.
Proof. reflexivity. Qed.

Example test_update_verification_attempt_status_not_found :
  result (update_verification_attempt_status sample_dir 999999 "approved"
            (sample_world (PyBool true))) = Raise VerificationAttempt_DoesNotExist.
Proof. reflexivity. Qed.

Example test_send_approval_date :
  strftime (datetime_date sample_datetime) "%m/%d/%Y" = "12/31/2024".
Proof. reflexivity. Qed.

Example send_approval_email_user_without_profile :
  send_approval_email sample_gettext sample_python_format
    sample_attempt_no_profile (sample_world (PyBool true)) =
  (Raise RelatedObjectDoesNotExist, sample_world (PyBool true)).
Proof. reflexivity. Qed.

Example send_approval_email_subject_with_other_field :
  result (send_approval_email sample_gettext_other_field sample_python_format
            sample_attempt (sample_world (PyBool true))) =
  Raise (KeyError "platform").
Proof. reflexivity. Qed.

Example str_format_samples :
  str_format sample_python_format "{{{platform_name}}}" "platform_name" "edX"
    = Return "{edX}" /\
  str_format sample_python_format "100% }" "platform_name" "edX"
    = Raise ValueError /\
  str_format sample_python_format "{} and {platform_name}" "platform_name" "edX"
    = Raise IndexError /\
  str_format sample_python_format "{0}" "platform_name" "edX"
    = Raise IndexError /\
  str_format sample_python_format "{platform_name" "platform_name" "edX"
    = Raise ValueError.
Proof. repeat split. Qed.

(** ** The claims at the fixtures *)

Lemma update_invalid_status_raises_witness :
  ~ In "submitted" (status_list sample_dir) /\
  (let r := update_verification_attempt_status sample_dir 1 "submitted"
              (sample_world (PyBool true)) in
   result r = Raise VerificationAttemptInvalidStatus /\
   db_rows (world r) = db_rows (sample_world (PyBool true)) /\
   db_seq (world r) = db_seq (sample_world (PyBool true)) /\
   db_queries (world r) = db_queries (sample_world (PyBool true))).
Proof.
  assert (Hbad : ~ In "submitted" (status_list sample_dir)).
  { vm_compute. intros [H | [H | [H | [H | []]]]]; discriminate H. }
  split; [exact Hbad |].
  exact (update_invalid_status_raises sample_dir 1 "submitted"
           (sample_world (PyBool true)) Hbad).
Defined.

(** C2.  [create_verification_attempt] stores whatever status it is given.
    On the database of the tests every stored status is in the list that
    [update_verification_attempt_status] accepts; the call with submitted,
    which is not in that list, returns the new key 2, the row under that
    key has status submitted, and the invariant no longer holds. *)
Theorem create_persists_unlisted_status :
  let w := sample_world (PyBool true) in
  let res := create_verification_attempt sample_user "Tester McTest" "submitted"
               None w in
  statuses_listed sample_dir w /\
  result res = Return 2 /\
  VerificationAttempt.status <$> db_rows (world res) !! 2 = Some "submitted" /\
  ~ In "submitted" (status_list sample_dir) /\
  ~ statuses_listed sample_dir (world res).
Proof.
  cbv zeta.
  assert (Hbad : ~ In "submitted" (status_list sample_dir)).
  { vm_compute. intros [H | [H | [H | [H | []]]]]; discriminate H. }
  split; [| split; [reflexivity | split; [reflexivity | split; [exact Hbad |]]]].
  - intros pk r Hr. cbn in Hr.
    apply lookup_singleton_Some in Hr as [_ <-]. vm_compute. right. left. reflexivity.
  - intros Hinv. apply Hbad.
    exact (Hinv 2 _ eq_refl).
Qed.

Lemma update_changes_only_status_witness :
  In "approved" (status_list sample_dir) /\
  db_rows (sample_world (PyBool true)) !! 1 = Some sample_row /\
  (let w' := world (update_verification_attempt_status sample_dir 1 "approved"
                      (sample_world (PyBool true))) in
   (exists r',
       db_rows w' !! 1 = Some r' /\
       VerificationAttempt.user r' = VerificationAttempt.user sample_row /\
       VerificationAttempt.name r' = VerificationAttempt.name sample_row /\
       VerificationAttempt.expiration_datetime r' =
         VerificationAttempt.expiration_datetime sample_row) /\
   (forall pk, pk <> 1 ->
      db_rows w' !! pk = db_rows (sample_world (PyBool true)) !! pk)).
Proof.
  assert (Hok : In "approved" (status_list sample_dir)).
  { vm_compute. left. reflexivity. }
  assert (Hrow : db_rows (sample_world (PyBool true)) !! 1 = Some sample_row).
  { reflexivity. }
  split; [exact Hok |]. split; [exact Hrow |].
  exact (update_changes_only_status sample_dir 1 "approved"
           (sample_world (PyBool true)) sample_row Hok Hrow).
Defined.

Lemma update_sets_status_witness :
  In "denied" (status_list sample_dir) /\
  db_rows (sample_world (PyBool false)) !! 1 = Some sample_row /\
  (let res := update_verification_attempt_status sample_dir 1 "denied"
                (sample_world (PyBool false)) in
   result res = Return tt /\
   VerificationAttempt.status <$> db_rows (world res) !! 1 = Some "denied" /\
   db_queries (world res) =
     (db_queries (sample_world (PyBool false)) ++ [SelectById 1; UpdateRow 1])%list).
Proof.
  assert (Hok : In "denied" (status_list sample_dir)).
  { vm_compute. right. right. left. reflexivity. }
  assert (Hrow : db_rows (sample_world (PyBool false)) !! 1 = Some sample_row).
  { reflexivity. }
  split; [exact Hok |]. split; [exact Hrow |].
  exact (update_sets_status sample_dir 1 "denied"
           (sample_world (PyBool false)) sample_row Hok Hrow).
Defined.

Lemma update_checks_status_first_witness :
  ~ In "expired" (status_list sample_dir) /\
  db_rows (sample_world (PyBool true)) !! 999999 = None /\
  (let r := update_verification_attempt_status sample_dir 999999 "expired"
              (sample_world (PyBool true)) in
   result r = Raise VerificationAttemptInvalidStatus /\
   db_queries (world r) = db_queries (sample_world (PyBool true))).
Proof.
  assert (Hbad : ~ In "expired" (status_list sample_dir)).
  { vm_compute. intros [H | [H | [H | [H | []]]]]; discriminate H. }
  assert (Hnone : db_rows (sample_world (PyBool true)) !! 999999 = None).
  { reflexivity. }
  split; [exact Hbad |]. split; [exact Hnone |].
  exact (update_checks_status_first sample_dir 999999 "expired"
           (sample_world (PyBool true)) Hbad Hnone).
Defined.

Lemma update_missing_attempt_raises_witness :
  In "approved" (status_list sample_dir) /\
  db_rows (sample_world (PyBool true)) !! 999999 = None /\
  (let r := update_verification_attempt_status sample_dir 999999 "approved"
              (sample_world (PyBool true)) in
   result r = Raise VerificationAttempt_DoesNotExist /\
   db_rows (world r) = db_rows (sample_world (PyBool true)) /\
   db_seq (world r) = db_seq (sample_world (PyBool true))).
Proof.
  assert (Hok : In "approved" (status_list sample_dir)).
  { vm_compute. left. reflexivity. }
  assert (Hnone : db_rows (sample_world (PyBool true)) !! 999999 = None).
  { reflexivity. }
  split; [exact Hok |]. split; [exact Hnone |].
  exact (update_missing_attempt_raises sample_dir 999999 "approved"
           (sample_world (PyBool true)) Hok Hnone).
Defined.

Lemma create_persists_one_record_witness :
  db_wf (sample_world (PyBool true)) /\
  (let res := create_verification_attempt sample_user "Tester McTest" "created"
                (Some sample_datetime) (sample_world (PyBool true)) in
   exists new_id,
     result res = Return new_id /\
     db_rows (sample_world (PyBool true)) !! new_id = None /\
     db_rows (world res) =
       <[new_id := sample_row]> (db_rows (sample_world (PyBool true))) /\
     size (db_rows (world res)) = S (size (db_rows (sample_world (PyBool true))))).
Proof.
  assert (Hwf : db_wf (sample_world (PyBool true))).
  { intros pk [r Hr]. cbn in Hr.
    apply lookup_singleton_Some in Hr as [<- _]. cbn. lia. }
  split; [exact Hwf |].
  exact (proj1 (create_persists_one_record sample_user "Tester McTest" "created"
                  (Some sample_datetime) (sample_world (PyBool true)) Hwf)).
Defined.

(** C6, as it is written, at an attempt without expiration_datetime: the
    call hands nothing to either back end. *)
Lemma send_approval_email_no_backend_counterexample :
  let w := sample_world (PyBool true) in
  ~ exists c,
      outbox (world (send_approval_email sample_gettext sample_python_format
                       sample_attempt_no_expiration w)) =
      (outbox w ++ [c])%list.
Proof.
  cbv zeta. intros [c Hc]. vm_compute in Hc. discriminate Hc.
Qed.

Lemma send_approval_email_one_backend_witness :
  VerificationAttempt.expiration_datetime (VerificationAttempt.row sample_attempt)
    = Some sample_datetime /\
  (truthy (dict_get (VERIFY_STUDENT (settings (sample_world (PyBool true))))
             "USE_DJANGO_MAIL") = true ->
   is_Some (User.profile
              (VerificationAttempt.user (VerificationAttempt.row sample_attempt)))
   /\ exists subject,
        str_format sample_python_format
          (sample_gettext "Your {platform_name} ID verification was approved!")
          "platform_name" (PLATFORM_NAME (settings (sample_world (PyBool true))))
        = Return subject) /\
  (let r := send_approval_email sample_gettext sample_python_format
              sample_attempt (sample_world (PyBool true)) in
   result r = Return tt /\
   exists context email_vars,
     outbox (world r) =
       (outbox (sample_world (PyBool true))
        ++ [send_verification_status_email_delay (PyDict context)])%list /\
     context !! "email_vars" = Some (PyDict email_vars) /\
     email_vars !! "expiration_datetime" = Some (PyStr "12/31/2024")).
Proof.
  assert (Hqueue :
    truthy (dict_get (VERIFY_STUDENT (settings (sample_world (PyBool true))))
              "USE_DJANGO_MAIL") = true ->
    is_Some (User.profile
               (VerificationAttempt.user (VerificationAttempt.row sample_attempt)))
    /\ exists subject,
         str_format sample_python_format
           (sample_gettext "Your {platform_name} ID verification was approved!")
           "platform_name" (PLATFORM_NAME (settings (sample_world (PyBool true))))
         = Return subject).
  { intros _. split; [eexists; reflexivity |].
    exists "Your edX ID verification was approved!". reflexivity. }
  split; [reflexivity |]. split; [exact Hqueue |].
  exact (send_approval_email_one_backend sample_gettext sample_python_format
           sample_attempt sample_datetime (sample_world (PyBool true))
           eq_refl Hqueue).
Defined.

Lemma send_approval_email_needs_expiration_witness :
  VerificationAttempt.expiration_datetime
    (VerificationAttempt.row sample_attempt_no_expiration) = None /\
  (let r := send_approval_email sample_gettext sample_python_format
              sample_attempt_no_expiration
              (sample_world (PyBool false)) in
   (exists msg, result r = Raise (AttributeError msg)) /\
   outbox (world r) = outbox (sample_world (PyBool false)) /\
   world r = sample_world (PyBool false)).
Proof.
  split; [reflexivity |].
  exact (send_approval_email_needs_expiration sample_gettext sample_python_format
           sample_attempt_no_expiration (sample_world (PyBool false)) eq_refl).
Defined.

Lemma no_operation_deletes_witness :
  is_Some (db_rows (sample_world (PyBool true)) !! 1) /\
  is_Some (db_rows (world (send_approval_email sample_gettext
                             sample_python_format sample_attempt
                             (sample_world (PyBool true)))) !! 1) /\
  is_Some (db_rows (world (create_verification_attempt sample_user
                             "Tester McTest" "created" None
                             (sample_world (PyBool true)))) !! 1) /\
  is_Some (db_rows (world (update_verification_attempt_status sample_dir
                             1 "pending" (sample_world (PyBool true)))) !! 1).
Proof.
  assert (Hpk : is_Some (db_rows (sample_world (PyBool true)) !! 1)).
  { exists sample_row. reflexivity. }
  split; [exact Hpk |].
  destruct (no_operation_deletes sample_dir sample_gettext sample_python_format
              (sample_world (PyBool true)) 1 Hpk) as (Hsend & Hcreate & Hupdate).
  split; [apply Hsend |]. split; [apply Hcreate | apply Hupdate].
Defined.

(** ** The further properties at the fixtures *)

Lemma update_refuses_dunder_names_witness :
  startswith "__doc__" "__" = true /\
  (let r := update_verification_attempt_status sample_dir 1 "__doc__"
              (sample_world (PyBool true)) in
   result r = Raise VerificationAttemptInvalidStatus /\
   db_rows (world r) = db_rows (sample_world (PyBool true))).
Proof.
  split; [reflexivity |].
  exact (update_refuses_dunder_names sample_dir 1 "__doc__"
           (sample_world (PyBool true)) eq_refl).
Defined.

Lemma update_last_write_wins_witness :
  In "denied" (status_list sample_dir) /\
  db_rows (world (update_verification_attempt_status sample_dir 1 "denied"
                    (world (update_verification_attempt_status sample_dir
                              1 "approved" (sample_world (PyBool true)))))) =
  db_rows (world (update_verification_attempt_status sample_dir 1 "denied"
                    (sample_world (PyBool true)))).
Proof.
  assert (Hok : In "denied" (status_list sample_dir)).
  { vm_compute. right. right. left. reflexivity. }
  split; [exact Hok |].
  exact (update_last_write_wins sample_dir 1 "approved" "denied"
           (sample_world (PyBool true)) Hok).
Defined.

Lemma create_then_update_witness :
  In "pending" (status_list sample_dir) /\
  (let r1 := create_verification_attempt sample_user "Tester McTest" "created"
               None (sample_world (PyBool true)) in
   exists new_id,
     result r1 = Return new_id /\
     let r2 := update_verification_attempt_status sample_dir new_id "pending"
                 (world r1) in
     result r2 = Return tt /\
     db_rows (world r2) !! new_id =
       Some {| VerificationAttempt.user := sample_user;
               VerificationAttempt.name := "Tester McTest";
               VerificationAttempt.status := "pending";
               VerificationAttempt.expiration_datetime := None |}).
Proof.
  assert (Hok : In "pending" (status_list sample_dir)).
  { vm_compute. right. right. right. left. reflexivity. }
  split; [exact Hok |].
  exact (create_then_update sample_dir sample_user "Tester McTest" "created"
           "pending" None (sample_world (PyBool true)) Hok).
Defined.

Lemma send_approval_email_setting_missing_witness :
  VERIFY_STUDENT (settings sample_world_no_setting) !! "USE_DJANGO_MAIL" = None /\
  VerificationAttempt.expiration_datetime (VerificationAttempt.row sample_attempt)
    = Some sample_datetime /\
  (let r := send_approval_email sample_gettext sample_python_format sample_attempt
              sample_world_no_setting in
   result r = Return tt /\
   outbox (world r) =
     [send_verification_approved_email
        (PyDict {[ "user" := PyUser sample_user;
                   "expiration_datetime" := PyStr "12/31/2024" ]})]).
Proof.
  split; [reflexivity |]. split; [reflexivity |].
  exact (send_approval_email_setting_missing sample_gettext
           sample_python_format sample_attempt
           sample_datetime sample_world_no_setting eq_refl eq_refl).
Defined.


Lemma send_approval_email_subject_witness :
  sample_gettext "Your {platform_name} ID verification was approved!" =
    "Your {platform_name} ID verification was approved!" /\
  truthy (dict_get (VERIFY_STUDENT (settings (sample_world (PyInt 1))))
            "USE_DJANGO_MAIL") = true /\
  VerificationAttempt.expiration_datetime (VerificationAttempt.row sample_attempt)
    = Some sample_datetime /\
  is_Some (User.profile
             (VerificationAttempt.user (VerificationAttempt.row sample_attempt))) /\
  exists context,
    outbox (world (send_approval_email sample_gettext sample_python_format
                     sample_attempt (sample_world (PyInt 1)))) =
      [send_verification_status_email_delay (PyDict context)] /\
    context !! "subject" = Some (PyStr "Your edX ID verification was approved!") /\
    context !! "email" = Some (PyStr "robot@example.com") /\
    context !! "template" = Some (PyStr "emails/passed_verification_email.txt").
Proof.
  assert (Hprofile :
    is_Some (User.profile
               (VerificationAttempt.user (VerificationAttempt.row sample_attempt))))
    by (eexists; reflexivity).
  split; [reflexivity |]. split; [reflexivity |]. split; [reflexivity |].
  split; [exact Hprofile |].
  exact (send_approval_email_subject sample_gettext sample_python_format
           sample_attempt sample_datetime (sample_world (PyInt 1))
           eq_refl eq_refl eq_refl Hprofile).
Defined.

Lemma expiration_date_shape_witness :
  1 <= month sample_datetime <= 12 /\
  1 <= day sample_datetime <= 31 /\
  1000 <= year sample_datetime <= 9999 /\
  date_shape (strftime (datetime_date sample_datetime) "%m/%d/%Y") = true.
Proof.
  assert (Hm : 1 <= month sample_datetime <= 12) by (cbn; lia).
  assert (Hd : 1 <= day sample_datetime <= 31) by (cbn; lia).
  assert (Hy : 1000 <= year sample_datetime <= 9999) by (cbn; lia).
  split; [exact Hm |]. split; [exact Hd |]. split; [exact Hy |].
  exact (expiration_date_shape sample_datetime Hm Hd Hy).
Defined.

Lemma run_calls_counts_witness :
  db_wf (sample_world (PyBool true)) /\
  (let calls :=
     [ Call_create_verification_attempt sample_user "Tester McTest" "created" None;
       Call_update_verification_attempt_status 2 "approved";
       Call_update_verification_attempt_status 7 "approved";
       Call_send_approval_email sample_attempt;
       Call_create_verification_attempt sample_user "Tester McTest" "expired"
         (Some sample_datetime) ] in
   let w' := run_calls sample_dir sample_gettext sample_python_format calls
               (sample_world (PyBool true)) in
   db_wf w' /\
   db_seq w' = db_seq (sample_world (PyBool true)) + Z.of_nat (count_creates calls) /\
   size (db_rows w') =
     (size (db_rows (sample_world (PyBool true))) + count_creates calls)%nat).
Proof.
  assert (Hwf : db_wf (sample_world (PyBool true))).
  { intros pk [r Hr]. cbn in Hr.
    apply lookup_singleton_Some in Hr as [<- _]. cbn. lia. }
  split; [exact Hwf |].
  exact (run_calls_counts sample_dir sample_gettext sample_python_format _
           (sample_world (PyBool true)) Hwf).
Defined.

Lemma run_calls_row_witness :
  db_wf (sample_world (PyBool false)) /\
  db_rows (sample_world (PyBool false)) !! 1 = Some sample_row /\
  (let calls :=
     [ Call_create_verification_attempt sample_user "Other" "created" None;
       Call_update_verification_attempt_status 1 "approved";
       Call_send_approval_email sample_attempt;
       Call_update_verification_attempt_status 1 "submitted" ] in
   exists r',
     db_rows (run_calls sample_dir sample_gettext sample_python_format calls
                (sample_world (PyBool false))) !! 1 = Some r' /\
     VerificationAttempt.user r' = VerificationAttempt.user sample_row /\
     VerificationAttempt.name r' = VerificationAttempt.name sample_row /\
     VerificationAttempt.expiration_datetime r' =
       VerificationAttempt.expiration_datetime sample_row /\
     (VerificationAttempt.status r' = VerificationAttempt.status sample_row \/
      In (VerificationAttempt.status r') (status_list sample_dir))).
Proof.
  assert (Hwf : db_wf (sample_world (PyBool false))).
  { intros pk [r Hr]. cbn in Hr.
    apply lookup_singleton_Some in Hr as [<- _]. cbn. lia. }
  split; [exact Hwf |]. split; [reflexivity |].
  exact (run_calls_row sample_dir sample_gettext sample_python_format _
           (sample_world (PyBool false))
           1 sample_row Hwf eq_refl).
Defined.

Lemma run_calls_statuses_listed_witness :
  (let calls :=
     [ Call_create_verification_attempt sample_user "Other" "pending" None;
       Call_update_verification_attempt_status 2 "denied";
       Call_update_verification_attempt_status 1 "failed";
       Call_send_approval_email sample_attempt ] in
   Forall (fun c =>
             match c with
             | Call_create_verification_attempt _ _ status _ =>
                 In status (status_list sample_dir)
             | _ => True
             end) calls /\
   statuses_listed sample_dir (sample_world (PyBool true)) /\
   statuses_listed sample_dir
     (run_calls sample_dir sample_gettext sample_python_format calls
        (sample_world (PyBool true)))).
Proof.
  cbv zeta.
  assert (Hcalls :
    Forall (fun c =>
              match c with
              | Call_create_verification_attempt _ _ status _ =>
                  In status (status_list sample_dir)
              | _ => True
              end)
      [ Call_create_verification_attempt sample_user "Other" "pending" None;
        Call_update_verification_attempt_status 2 "denied";
        Call_update_verification_attempt_status 1 "failed";
        Call_send_approval_email sample_attempt ]).
  { constructor.
    - vm_compute. right. right. right. left. reflexivity.
    - repeat (constructor; [exact I |]). constructor. }
  assert (Hinv : statuses_listed sample_dir (sample_world (PyBool true))).
  { intros pk r Hr. cbn in Hr.
    apply lookup_singleton_Some in Hr as [_ <-].
    vm_compute. right. left. reflexivity. }
  split; [exact Hcalls |]. split; [exact Hinv |].
  exact (run_calls_statuses_listed sample_dir sample_gettext sample_python_format _
           (sample_world (PyBool true)) Hcalls Hinv).
Defined.
